(** * Insurance charge predictor (streamlit_insurance_app.py)

    A shallow embedding of the Streamlit script: the one-hot encoder that
    builds [input_df], the prediction button, the cached model loader
    ([@st.cache_resource load_model]), the analytics page with its bare
    [try/except], the Home page's optional animation, the Upload page, and
    one rerun of the whole script as a state/exception
    computation over the process world (files, resource cache, read log,
    rendered elements). *)

From Stdlib Require Import String List ZArith QArith_base Bool Lia.
Import ListNotations.
Open Scope string_scope.
Open Scope list_scope.

(** ** Data frames built by the Predict page *)

Section Encoder.

(** [st.number_input] values: the encoder only copies them. *)
Context {Num : Type}.

(** A cell of a single-row [pd.DataFrame]: a number from a widget or a
    Python int built by [1 if ... else 0]. *)
Inductive Cell :=
| CNum (n : Num)
| CInt (z : Z).

(** A data frame as its ordered columns (dict insertion order). *)
Definition DataFrame := list (string * list Cell).

(** [1 if b else 0] *)
Definition py_flag (b : bool) : Z := if b then 1%Z else 0%Z.

(** The dict passed to [pd.DataFrame] at lines 106-115. *)
Definition input_df (age bmi children : Num) (smoker sex region : string)
  : DataFrame :=
  [ ("age", [CNum age]);
    ("bmi", [CNum bmi]);
    ("children", [CNum children]);
    ("smoker", [CInt (py_flag (String.eqb smoker "yes"))]);
    ("sex_male", [CInt (py_flag (String.eqb sex "male"))]);
    ("region_northwest", [CInt (py_flag (String.eqb region "northwest"))]);
    ("region_southeast", [CInt (py_flag (String.eqb region "southeast"))]);
    ("region_southwest", [CInt (py_flag (String.eqb region "southwest"))]) ].

(** [df[k]]: the first column named [k]. *)
Fixpoint df_column (df : DataFrame) (k : string) : option (list Cell) :=
  match df with
  | [] => None
  | (k', col) :: rest => if String.eqb k k' then Some col else df_column rest k
  end.

Definition df_columns (df : DataFrame) : list string := map fst df.

(** The single int of column [k], when it is one. *)
Definition df_int (df : DataFrame) (k : string) : option Z :=
  match df_column df k with
  | Some [CInt z] => Some z
  | _ => None
  end.

(** The single number of column [k], when it is one. *)
Definition df_num (df : DataFrame) (k : string) : option Num :=
  match df_column df k with
  | Some [CNum n] => Some n
  | _ => None
  end.

(** The three region flags of a frame, in column order. *)
Definition region_flags (df : DataFrame) : option (Z * Z * Z) :=
  match df_int df "region_northwest", df_int df "region_southeast",
        df_int df "region_southwest" with
  | Some a, Some b, Some c => Some (a, b, c)
  | _, _, _ => None
  end.

End Encoder.

Arguments Cell : clear implicits.
Arguments DataFrame : clear implicits.

(** ** The process world and the script's effects *)

(** Python exceptions the script can raise. *)
Inductive Exc :=
| FileNotFoundError (path : string)
| JSONDecodeError
| ParserError
| UnpicklingError
| IndexError
| PlotError
| PredictError.

(** Elements a script run renders. *)
Inductive Elem :=
| Markdown (html : string)
| StInfo (msg : string)
| StError (msg : string)
| StSuccess (msg : string)
| Lottie
| Tabs
| Chart (title : string)
| Preview
| ResultCard (amount : string).

Inductive Page := Home | PredictPage | AnalyticsPage | UploadPage.

Section Runtime.

Context {Num Model Pred Table Json : Type}.

(** The libraries the script calls, on the bytes or objects they get. *)
Variable joblib_load : string -> option Model.
Variable json_load : string -> option Json.
Variable json_truthy : Json -> bool.
Variable read_csv : string -> option Table.
(** [px.scatter]/[px.box] on a table with x, y and color columns. *)
Variable px_plot : Table -> string -> string -> option string -> bool.
(** [model.predict] on a data frame: one output per row, or an error. *)
Variable model_predict : Model -> DataFrame Num -> Exc + list Pred.
(** [f"{prediction:.2f}"] *)
Variable format_2f : Pred -> string.

Record World := {
  w_files : list (string * string);   (* file system: path and contents *)
  w_cache : option Model;              (* st.cache_resource entry of load_model *)
  w_reads : list string;               (* paths opened so far, in order *)
  w_out : list Elem                    (* elements rendered so far *)
}.

Definition set_cache (m : Model) (w : World) : World :=
  {| w_files := w_files w; w_cache := Some m; w_reads := w_reads w; w_out := w_out w |}.
Definition log_read (p : string) (w : World) : World :=
  {| w_files := w_files w; w_cache := w_cache w; w_reads := w_reads w ++ [p]; w_out := w_out w |}.
Definition log_out (e : Elem) (w : World) : World :=
  {| w_files := w_files w; w_cache := w_cache w; w_reads := w_reads w; w_out := w_out w ++ [e] |}.

Fixpoint file_lookup (fs : list (string * string)) (p : string) : option string :=
  match fs with
  | [] => None
  | (q, c) :: rest => if String.eqb p q then Some c else file_lookup rest p
  end.

(** State and exception monad: an exception keeps the effects done so far. *)
Definition PyM (A : Type) := World -> (Exc + A) * World.

Definition ret {A} (a : A) : PyM A := fun w => (inr a, w).
Definition bind {A B} (m : PyM A) (f : A -> PyM B) : PyM B :=
  fun w => match m w with
           | (inl e, w') => (inl e, w')
           | (inr a, w') => f a w'
           end.
Definition raise {A} (e : Exc) : PyM A := fun w => (inl e, w).
(** [try: m except: h] (a bare except catches every exception). *)
Definition try_except {A} (m : PyM A) (h : Exc -> PyM A) : PyM A :=
  fun w => match m w with
           | (inl e, w') => h e w'
           | ok => ok
           end.
Definition lift {A} (r : Exc + A) : PyM A := fun w => (r, w).
Definition lift_opt {A} (o : option A) (e : Exc) : PyM A :=
  match o with Some a => ret a | None => raise e end.

Local Notation "x <- m ;; k" := (bind m (fun x => k))
  (at level 61, m at next level, right associativity).
Local Notation "m ;;; k" := (bind m (fun _ : unit => k))
  (at level 61, right associativity).

Definition render (e : Elem) : PyM unit := fun w => (inr tt, log_out e w).

(** [open(path)] and read it whole. *)
Definition open_read (p : string) : PyM string :=
  fun w => match file_lookup (w_files w) p with
           | Some c => (inr c, log_read p w)
           | None => (inl (FileNotFoundError p), w)
           end.

Definition artifact := "optimized_random_forest_model.joblib".

(** [joblib.load(artifact)] *)
Definition load_model_body : PyM Model :=
  c <- open_read artifact ;; lift_opt (joblib_load c) UnpicklingError.

(** [@st.cache_resource]: a hit returns the stored handle; a miss runs the
    body and stores its result; an exception is not stored. *)
Definition load_model : PyM Model :=
  fun w => match w_cache w with
           | Some m => (inr m, w)
           | None => match load_model_body w with
                     | (inr m, w') => (inr m, set_cache m w')
                     | (inl e, w') => (inl e, w')
                     end
           end.

(** [load_lottie(path)] *)
Definition load_lottie (p : string) : PyM Json :=
  c <- open_read p ;; lift_opt (json_load c) JSONDecodeError.

Definition smoker_options := ["yes"; "no"].
Definition sex_options := ["male"; "female"].
Definition region_options := ["northwest"; "southeast"; "southwest"].

(** [st.selectbox(label, options)]: the option at the index the user
    picked (the widget offers no other value). *)
Definition selectbox (opts : list string) (i : nat) : PyM string :=
  lift_opt (nth_error opts i) IndexError.

(** The user's interaction for one rerun. *)
Record Event := {
  ev_menu : Page;
  ev_age : Num; ev_bmi : Num; ev_children : Num;
  ev_smoker : nat; ev_sex : nat; ev_region : nat;
  ev_pressed : bool;
  ev_upload : option string
}.

(** Building [input_df]: no effect. *)
Definition encode (age bmi children : Num) (smoker sex region : string)
  : PyM (DataFrame Num) :=
  ret (input_df age bmi children smoker sex region).

(** Widgets and one-hot encoding of the Predict page (lines 94-115). *)
Definition predict_inputs (ev : Event) : PyM (DataFrame Num) :=
  smoker <- selectbox smoker_options (ev_smoker ev) ;;
  sex <- selectbox sex_options (ev_sex ev) ;;
  region <- selectbox region_options (ev_region ev) ;;
  encode (ev_age ev) (ev_bmi ev) (ev_children ev) smoker sex region.

(** [prediction = model.predict(input_df)[0]] and the result card. *)
Definition predict (model : Model) (df : DataFrame Num) : PyM Pred :=
  out <- lift (model_predict model df) ;;
  match out with
  | [] => raise IndexError
  | p :: _ => render (ResultCard (format_2f p)) ;;; ret p
  end.

Definition predict_page (ev : Event) (model : Model) : PyM (option Pred) :=
  render (Markdown "title") ;;; render (Markdown "subtitle") ;;;
  df <- predict_inputs ev ;;
  if ev_pressed ev then p <- predict model df ;; ret (Some p) else ret None.

Definition dataset_missing_msg :=
  "Dataset 'insurance.csv' not found. Upload it in the next tab.".

(** [fig = px...(df, ...)]; [st.plotly_chart(fig)] *)
Definition chart (t : Table) (x y : string) (color : option string) (title : string)
  : PyM unit :=
  if px_plot t x y color then render (Chart title) else raise PlotError.

(** Lines 133-158. *)
Definition analytics_page : PyM unit :=
  render (Markdown "title") ;;;
  try_except
    (c <- open_read "insurance.csv" ;;
     df <- lift_opt (read_csv c) ParserError ;;
     render Tabs ;;;
     chart df "age" "charges" (Some "sex") "Age vs Charges" ;;;
     chart df "bmi" "charges" (Some "smoker") "BMI vs Charges" ;;;
     chart df "smoker" "charges" None "Smoker vs Non-Smoker Charges")
    (fun _ => render (StError dataset_missing_msg)).

(** Lines 163-172: no [try] around [pd.read_csv(uploaded)]. *)
Definition upload_page (ev : Event) : PyM unit :=
  render (Markdown "title") ;;;
  match ev_upload ev with
  | None => ret tt
  | Some c =>
      _ <- lift_opt (read_csv c) ParserError ;;
      render (Markdown "### Preview") ;;; render Preview ;;; render (StSuccess "Dataset loaded successfully!")
  end.

Definition lottie_missing_msg :=
  "Animation file not found. Add animation.json for animated graphics.".

Definition page_eqb (a b : Page) : bool :=
  match a, b with
  | Home, Home | PredictPage, PredictPage | AnalyticsPage, AnalyticsPage
  | UploadPage, UploadPage => true
  | _, _ => false
  end.

(** Everything after [model = load_model()]; returns the prediction made in
    this rerun, if any. *)
Definition page_body (ev : Event) (model : Model) : PyM (option Pred) :=
  render (Markdown "css") ;;;
  animation <- try_except (a <- load_lottie "animation.json" ;; ret (Some a))
                          (fun _ => ret None) ;;
  (if page_eqb (ev_menu ev) Home then
     render (Markdown "title") ;;;
     match animation with
     | Some a => if json_truthy a then render Lottie
                 else render (StInfo lottie_missing_msg)
     | None => render (StInfo lottie_missing_msg)
     end
   else ret tt) ;;;
  prediction <- (if page_eqb (ev_menu ev) PredictPage then predict_page ev model
                 else ret None) ;;
  (if page_eqb (ev_menu ev) AnalyticsPage then analytics_page else ret tt) ;;;
  (if page_eqb (ev_menu ev) UploadPage then upload_page ev else ret tt) ;;;
  render (Markdown "footer") ;;;
  ret prediction.

(** One rerun of the script. *)
Definition script (ev : Event) : PyM (option Pred) :=
  model <- load_model ;; page_body ev model.

(** Reruns of one process: an exception ends its rerun only. *)
Fixpoint process (evs : list Event) (w : World)
  : list (Exc + option Pred) * World :=
  match evs with
  | [] => ([], w)
  | ev :: rest =>
      let (r, w1) := script ev w in
      let (rs, w2) := process rest w1 in (r :: rs, w2)
  end.

(** The same reruns with a fixed model handle in place of [load_model()]. *)
Fixpoint process_with (model : Model) (evs : list Event) (w : World)
  : list (Exc + option Pred) * World :=
  match evs with
  | [] => ([], w)
  | ev :: rest =>
      let (r, w1) := page_body ev model w in
      let (rs, w2) := process_with model rest w1 in (r :: rs, w2)
  end.

(** ** Effects of the page code: no write to the cache, no artifact read *)

(** [w'] is [w] after a computation that left files and cache alone and
    opened only paths other than the model artifact. *)
Definition keeps (w w' : World) : Prop :=
  w_files w' = w_files w /\ w_cache w' = w_cache w /\
  exists l, w_reads w' = w_reads w ++ l /\ ~ In artifact l.

Definition safe {A} (m : PyM A) : Prop := forall w, keeps w (snd (m w)).

Lemma keeps_refl w : keeps w w.
Proof. split; [|split]; auto. exists []. rewrite app_nil_r. auto. Qed.

Lemma keeps_trans w1 w2 w3 : keeps w1 w2 -> keeps w2 w3 -> keeps w1 w3.
Proof.
  intros (F1 & C1 & l1 & R1 & N1) (F2 & C2 & l2 & R2 & N2).
  split; [congruence|split; [congruence|]].
  exists (l1 ++ l2). rewrite R2, R1, app_assoc. split; auto.
  intros Hin. apply in_app_or in Hin. tauto.
Qed.

Lemma safe_ret {A} (a : A) : safe (ret a).
Proof. intro w. apply keeps_refl. Qed.

Lemma safe_raise {A} e : safe (@raise A e).
Proof. intro w. apply keeps_refl. Qed.

Lemma safe_lift {A} (r : Exc + A) : safe (lift r).
Proof. intro w. apply keeps_refl. Qed.

Lemma safe_lift_opt {A} (o : option A) e : safe (lift_opt o e).
Proof. destruct o; [apply safe_ret | apply safe_raise]. Qed.

Lemma safe_render e : safe (render e).
Proof.
  intro w. split; [reflexivity | split; [reflexivity|]].
  exists []. simpl. rewrite app_nil_r. auto.
Qed.

Lemma safe_bind {A B} (m : PyM A) (f : A -> PyM B) :
  safe m -> (forall a, safe (f a)) -> safe (bind m f).
Proof.
  intros Hm Hf w. unfold bind. specialize (Hm w).
  destruct (m w) as [[e|a] w'] eqn:E; simpl in *; auto.
  eapply keeps_trans; [exact Hm | apply Hf].
Qed.

Lemma safe_try {A} (m : PyM A) (h : Exc -> PyM A) :
  safe m -> (forall e, safe (h e)) -> safe (try_except m h).
Proof.
  intros Hm Hh w. unfold try_except. specialize (Hm w).
  destruct (m w) as [[e|a] w'] eqn:E; simpl in *; auto.
  eapply keeps_trans; [exact Hm | apply Hh].
Qed.

Lemma safe_open_read p : p <> artifact -> safe (open_read p).
Proof.
  intros Hp w. unfold open_read.
  destruct (file_lookup (w_files w) p); simpl; [|apply keeps_refl].
  split; [reflexivity | split; [reflexivity|]].
  exists [p]. split; [reflexivity|]. intros [H|[]]; auto.
Qed.

Ltac safe_step :=
  match goal with
  | |- safe (bind _ _) => apply safe_bind; [|intro]
  | |- safe (try_except _ _) => apply safe_try; [|intro]
  | |- safe (ret _) => apply safe_ret
  | |- safe (raise _) => apply safe_raise
  | |- safe (lift _) => apply safe_lift
  | |- safe (lift_opt _ _) => apply safe_lift_opt
  | |- safe (render _) => apply safe_render
  | |- safe (open_read _) => apply safe_open_read; unfold artifact; discriminate
  | |- safe (if ?b then _ else _) => destruct b
  | |- safe (match ?x with _ => _ end) => destruct x
  | |- safe _ => progress unfold selectbox, encode, predict, predict_page,
                   predict_inputs, chart, analytics_page, upload_page, load_lottie
  end.

Lemma safe_page_body ev m : safe (page_body ev m).
Proof. unfold page_body. repeat safe_step. Qed.

Lemma load_model_hit w m : w_cache w = Some m -> load_model w = (inr m, w).
Proof. intro H. unfold load_model. rewrite H. reflexivity. Qed.

Lemma script_hit ev w m :
  w_cache w = Some m -> script ev w = page_body ev m w.
Proof. intro H. unfold script, bind. rewrite (load_model_hit w m H). reflexivity. Qed.

Lemma process_hit evs : forall w m,
  w_cache w = Some m -> process evs w = process_with m evs w.
Proof.
  induction evs as [|ev rest IH]; intros w m H; simpl; [reflexivity|].
  rewrite (script_hit ev w m H).
  destruct (page_body ev m w) as [r w1] eqn:E.
  assert (K : keeps w w1).
  { pose proof (safe_page_body ev m w) as K. rewrite E in K. exact K. }
  destruct K as (_ & C & _).
  rewrite (IH w1 m); [reflexivity | congruence].
Qed.

Lemma process_with_keeps m evs : forall w, keeps w (snd (process_with m evs w)).
Proof.
  induction evs as [|ev rest IH]; intro w; simpl; [apply keeps_refl|].
  destruct (page_body ev m w) as [r w1] eqn:E.
  destruct (process_with m rest w1) as [rs w2] eqn:E2. simpl.
  apply keeps_trans with w1.
  - pose proof (safe_page_body ev m w) as K. rewrite E in K. exact K.
  - specialize (IH w1). rewrite E2 in IH. exact IH.
Qed.

(** ** The encoder *)

Ltac eqb_cases :=
  repeat match goal with
  | |- context [String.eqb ?a ?b] => destruct (String.eqb_spec a b); subst
  end.

(** C1: for "northwest", "southeast" and "southwest" exactly the matching
    region flag is 1; for every other string the three flags are 0. *)
Theorem region_flags_one_hot (age bmi children : Num) (smoker sex region : string) :
  let df := input_df age bmi children smoker sex region in
  (region = "northwest" -> region_flags df = Some (1, 0, 0)%Z) /\
  (region = "southeast" -> region_flags df = Some (0, 1, 0)%Z) /\
  (region = "southwest" -> region_flags df = Some (0, 0, 1)%Z) /\
  (region <> "northwest" -> region <> "southeast" -> region <> "southwest" ->
     region_flags df = Some (0, 0, 0)%Z).
Proof.
  cbv zeta. unfold region_flags, df_int, input_df. simpl.
  split; [|split; [|split]]; intros; subst; simpl; try reflexivity.
  eqb_cases; simpl; congruence.
Qed.

(** C2: the smoker flag is 1 exactly when the input is "yes", and 0 for
    every other string (so "no" gives 0). *)
Theorem smoker_flag_yes (age bmi children : Num) (smoker sex region : string) :
  let df := input_df age bmi children smoker sex region in
  (df_int df "smoker" = Some 1%Z <-> smoker = "yes") /\
  (smoker <> "yes" -> df_int df "smoker" = Some 0%Z).
Proof.
  cbv zeta. unfold df_int, input_df. simpl.
  eqb_cases; simpl; split; try split; congruence.
Qed.

(** C3: the sex_male flag is 1 exactly when the input is "male", and 0 for
    every other string (so "female" gives 0). *)
Theorem sex_male_flag (age bmi children : Num) (smoker sex region : string) :
  let df := input_df age bmi children smoker sex region in
  (df_int df "sex_male" = Some 1%Z <-> sex = "male") /\
  (sex <> "male" -> df_int df "sex_male" = Some 0%Z).
Proof.
  cbv zeta. unfold df_int, input_df. simpl.
  eqb_cases; simpl; split; try split; congruence.
Qed.

(** C4: age, bmi and children are the first three columns and hold the
    inputs unchanged, whatever their values (no range check). *)
Theorem numeric_passthrough (age bmi children : Num) (smoker sex region : string) :
  let df := input_df age bmi children smoker sex region in
  firstn 3 (df_columns df) = ["age"; "bmi"; "children"] /\
  firstn 3 df = [("age", [CNum age]); ("bmi", [CNum bmi]); ("children", [CNum children])] /\
  df_num df "age" = Some age /\ df_num df "bmi" = Some bmi /\
  df_num df "children" = Some children.
Proof. cbv zeta. repeat split. Qed.

(** C6: building the frame has no effect on the world and its result
    depends on the six inputs only. *)
Theorem encode_pure (age bmi children : Num) (smoker sex region : string) (w1 w2 : World) :
  encode age bmi children smoker sex region w1
    = (inr (input_df age bmi children smoker sex region), w1) /\
  fst (encode age bmi children smoker sex region w1)
    = fst (encode age bmi children smoker sex region w2).
Proof. split; reflexivity. Qed.

(** C10: every frame the Predict page builds from its selectboxes has
    exactly one region flag set. *)
Theorem ui_region_one_hot (ev : Event) (w w' : World) (df : DataFrame Num) :
  predict_inputs ev w = (inr df, w') ->
  region_flags df = Some (1, 0, 0)%Z \/ region_flags df = Some (0, 1, 0)%Z \/
  region_flags df = Some (0, 0, 1)%Z.
Proof.
  unfold predict_inputs, selectbox, encode, bind, lift_opt.
  destruct (nth_error smoker_options (ev_smoker ev)) as [s|]; [|discriminate].
  destruct (nth_error sex_options (ev_sex ev)) as [x|]; [|discriminate].
  destruct (ev_region ev) as [|[|[|n]]]; simpl; intro H;
    try (destruct n; discriminate);
    injection H as <- _; unfold region_flags, df_int; simpl; auto.
Qed.

(** ** Prediction *)

(** C5: with the button pressed, the page returns the first element of
    [model.predict] on the frame whose eight columns are in the fixed order;
    the two-decimal string only goes into the rendered card. *)
Theorem predict_returns_first (ev : Event) (model : Model) (w : World)
    (s x r : string) (p : Pred) (rest : list Pred) :
  ev_pressed ev = true ->
  nth_error smoker_options (ev_smoker ev) = Some s ->
  nth_error sex_options (ev_sex ev) = Some x ->
  nth_error region_options (ev_region ev) = Some r ->
  model_predict model (input_df (ev_age ev) (ev_bmi ev) (ev_children ev) s x r)
    = inr (p :: rest) ->
  df_columns (input_df (ev_age ev) (ev_bmi ev) (ev_children ev) s x r)
    = ["age"; "bmi"; "children"; "smoker"; "sex_male";
       "region_northwest"; "region_southeast"; "region_southwest"] /\
  predict_page ev model w
    = (inr (Some p),
       log_out (ResultCard (format_2f p))
         (log_out (Markdown "subtitle") (log_out (Markdown "title") w))).
Proof.
  intros Hp Hs Hx Hr Hm. split; [reflexivity|].
  unfold predict_page, predict_inputs, selectbox, encode, predict, bind, lift_opt.
  rewrite Hs, Hx, Hr, Hp. simpl. rewrite Hm. reflexivity.
Qed.

(** C7: [model.predict(input_df)[0]] depends only on the model and the
    frame: two calls, in any worlds, one after the other or not, agree. *)
Theorem predict_deterministic (model : Model) (df : DataFrame Num) (w1 w2 : World) :
  fst (predict model df w1) = fst (predict model df w2) /\
  fst (predict model df (snd (predict model df w1))) = fst (predict model df w1).
Proof.
  unfold predict, bind, lift.
  destruct (model_predict model df) as [e|[|p rest]]; split; reflexivity.
Qed.

(** ** The analytics page *)

(** The bare [except:] catches whatever the block raises. *)
Lemma try_render_never_raises (m : PyM unit) (e : Elem) (w : World) :
  fst (try_except m (fun _ => render e) w) = inr tt.
Proof.
  unfold try_except, render. destruct (m w) as [[x|[]] w']; reflexivity.
Qed.

Lemma analytics_never_raises (w : World) : fst (analytics_page w) = inr tt.
Proof. unfold analytics_page at 1, bind at 1. apply try_render_never_raises. Qed.

(** C8: with insurance.csv missing or unparseable the page raises nothing:
    after its title it renders the error message and no tab or chart. *)
Theorem analytics_missing_dataset (w : World) :
  (file_lookup (w_files w) "insurance.csv" = None \/
   exists c, file_lookup (w_files w) "insurance.csv" = Some c /\ read_csv c = None) ->
  exists w0,
    analytics_page w = (inr tt, log_out (StError dataset_missing_msg) w0) /\
    w_out w0 = w_out w ++ [Markdown "title"].
Proof.
  intros H. unfold analytics_page, try_except, bind, render, open_read. simpl.
  destruct H as [H | (c & Hc & Hr)].
  - rewrite H. eexists. split; reflexivity.
  - rewrite Hc. unfold lift_opt. rewrite Hr. simpl. eexists. split; reflexivity.
Qed.

(** ** The cached model *)

Lemma load_model_miss w c m :
  w_cache w = None -> file_lookup (w_files w) artifact = Some c ->
  joblib_load c = Some m ->
  load_model w = (inr m, set_cache m (log_read artifact w)).
Proof.
  intros H0 Hf Hj. unfold load_model, load_model_body, bind, open_read.
  rewrite H0, Hf. unfold lift_opt. rewrite Hj. reflexivity.
Qed.

(** C9: from an empty cache, once [joblib.load] succeeds the artifact is
    read that one time: every rerun of the process, the first included, runs
    its page with that same handle, the cache keeps it, and the artifact is
    never opened again. *)
Theorem model_loaded_once (evs : list Event) (w : World) (c : string) (m : Model) :
  w_cache w = None ->
  file_lookup (w_files w) artifact = Some c ->
  joblib_load c = Some m ->
  evs <> [] ->
  process evs w = process_with m evs (set_cache m (log_read artifact w)) /\
  w_cache (snd (process evs w)) = Some m /\
  count_occ string_dec (w_reads (snd (process evs w))) artifact
    = S (count_occ string_dec (w_reads w) artifact).
Proof.
  intros H0 Hf Hj Hne.
  assert (E : process evs w = process_with m evs (set_cache m (log_read artifact w))).
  { destruct evs as [|ev rest]; [congruence|]. simpl.
    unfold script, bind. rewrite (load_model_miss w c m H0 Hf Hj).
    destruct (page_body ev m _) as [r w1] eqn:Eb.
    rewrite (process_hit rest w1 m); [reflexivity|].
    pose proof (safe_page_body ev m (set_cache m (log_read artifact w))) as K.
    rewrite Eb in K. destruct K as (_ & C & _). exact C. }
  rewrite E.
  destruct (process_with_keeps m evs (set_cache m (log_read artifact w)))
    as (_ & C & l & R & N).
  split; [reflexivity | split; [exact C|]].
  rewrite R. simpl. rewrite !count_occ_app, (proj1 (count_occ_not_In string_dec l artifact) N).
  simpl. destruct (string_dec artifact artifact) as [_|n]; [lia | congruence].
Qed.


(** ** Further behaviour of the script *)

(** Evaluate a rerun by cases on the library results it meets. *)
Ltac crunch :=
  repeat (cbn;
    first
    [ match goal with H : ?x = _ |- context [?x] => rewrite H end
    | match goal with |- context [page_eqb (ev_menu ?e) _] =>
        destruct (ev_menu e) eqn:?
      end
    | match goal with |- context [match ?x with _ => _ end] =>
        lazymatch x with
        | context [match _ with _ => _ end] => fail
        | _ => destruct x eqn:?
        end
      end ]); cbn.

Ltac unfold_run :=
  unfold script, load_model, load_model_body, page_body, predict_page,
    predict_inputs, selectbox, encode, predict, analytics_page, chart,
    upload_page, load_lottie, try_except, open_read, render, set_cache,
    lift_opt, lift, ret, raise, log_out, log_read, bind.

Lemma script_model_missing ev w :
  w_cache w = None -> file_lookup (w_files w) artifact = None ->
  script ev w = (inl (FileNotFoundError artifact), w).
Proof. intros H0 Hf. unfold script, load_model, load_model_body, bind, open_read.
  rewrite H0, Hf. reflexivity. Qed.

(** Without the model artifact every rerun of the process, whatever the
    page, raises FileNotFoundError before rendering anything, and the
    world is left as it was (the failure is not cached). *)
Theorem model_missing_every_rerun_fails (evs : list Event) (w : World) :
  w_cache w = None -> file_lookup (w_files w) artifact = None ->
  process evs w = (map (fun _ => inl (FileNotFoundError artifact)) evs, w).
Proof.
  intros H0 Hf. induction evs as [|ev rest IH]; simpl; [reflexivity|].
  rewrite (script_model_missing ev w H0 Hf), IH. reflexivity.
Qed.

Lemma script_model_corrupt ev w c :
  w_cache w = None -> file_lookup (w_files w) artifact = Some c ->
  joblib_load c = None ->
  script ev w = (inl UnpicklingError, log_read artifact w).
Proof. intros H0 Hf Hj. unfold script, load_model, load_model_body, bind, open_read.
  rewrite H0, Hf. unfold lift_opt. rewrite Hj. reflexivity. Qed.

(** When [joblib.load] fails on the artifact, every rerun raises, nothing
    is cached, and each rerun opens the artifact again. *)
Theorem model_corrupt_reread_every_rerun (evs : list Event) (w : World) (c : string) :
  w_cache w = None -> file_lookup (w_files w) artifact = Some c ->
  joblib_load c = None ->
  fst (process evs w) = map (fun _ => inl UnpicklingError) evs /\
  w_cache (snd (process evs w)) = None /\
  w_reads (snd (process evs w)) = w_reads w ++ repeat artifact (length evs).
Proof.
  intros H0 Hf Hj. revert w H0 Hf.
  induction evs as [|ev rest IH]; intros w H0 Hf; simpl.
  - rewrite app_nil_r. auto.
  - rewrite (script_model_corrupt ev w c H0 Hf Hj).
    destruct (IH (log_read artifact w) H0 Hf) as (R & C & L).
    destruct (process rest (log_read artifact w)) as [rs w2]. simpl in *.
    rewrite R, C, L. simpl. rewrite <- app_assoc. auto.
Qed.



(** animation.json is not cached: when it exists every rerun, on every
    page, opens it, and opens it before any other file. *)
Theorem animation_read_every_rerun (ev : Event) (m : Model) (w : World) (c : string) :
  file_lookup (w_files w) "animation.json" = Some c ->
  exists l, w_reads (snd (page_body ev m w)) = w_reads w ++ "animation.json" :: l.
Proof.
  intros Hf. unfold_run. crunch.
  all: eexists; rewrite <- ?app_assoc; reflexivity.
Qed.

(** Analytics page: a readable dataset whose three plots succeed gives the
    tabs and the three charts in order, and no error. *)
Theorem analytics_charts_rendered (w : World) (c : string) (t : Table) :
  file_lookup (w_files w) "insurance.csv" = Some c ->
  read_csv c = Some t ->
  px_plot t "age" "charges" (Some "sex") = true ->
  px_plot t "bmi" "charges" (Some "smoker") = true ->
  px_plot t "smoker" "charges" None = true ->
  fst (analytics_page w) = inr tt /\
  w_out (snd (analytics_page w))
    = w_out w ++ [Markdown "title"; Tabs; Chart "Age vs Charges";
                  Chart "BMI vs Charges"; Chart "Smoker vs Non-Smoker Charges"].
Proof.
  intros Hf Hr P1 P2 P3. unfold_run. crunch.
  split; [reflexivity | rewrite <- !app_assoc; reflexivity].
Qed.

(** Analytics page: when the dataset is read but a plot fails, the bare
    except still shows the "not found" message, after the tabs. *)
Theorem analytics_plot_failure_message (w : World) (c : string) (t : Table) :
  file_lookup (w_files w) "insurance.csv" = Some c ->
  read_csv c = Some t ->
  px_plot t "age" "charges" (Some "sex") = false ->
  fst (analytics_page w) = inr tt /\
  w_out (snd (analytics_page w))
    = w_out w ++ [Markdown "title"; Tabs; StError dataset_missing_msg].
Proof.
  intros Hf Hr P1. unfold_run. crunch.
  split; [reflexivity | rewrite <- !app_assoc; reflexivity].
Qed.

(** Predict page: until the button is pressed the page only renders its
    title and subtitle and returns no prediction. *)
Theorem predict_not_pressed (ev : Event) (m : Model) (w : World) (s x r : string) :
  ev_pressed ev = false ->
  nth_error smoker_options (ev_smoker ev) = Some s ->
  nth_error sex_options (ev_sex ev) = Some x ->
  nth_error region_options (ev_region ev) = Some r ->
  predict_page ev m w
    = (inr None, log_out (Markdown "subtitle") (log_out (Markdown "title") w)).
Proof.
  intros Hp Hs Hx Hr.
  unfold predict_page, predict_inputs, selectbox, encode, bind, lift_opt.
  rewrite Hs, Hx, Hr, Hp. reflexivity.
Qed.

(** Predict page: a model output with no element makes [[0]] raise
    IndexError; no result card is rendered. *)
Theorem predict_empty_output_raises (ev : Event) (m : Model) (w : World) (s x r : string) :
  ev_pressed ev = true ->
  nth_error smoker_options (ev_smoker ev) = Some s ->
  nth_error sex_options (ev_sex ev) = Some x ->
  nth_error region_options (ev_region ev) = Some r ->
  model_predict m (input_df (ev_age ev) (ev_bmi ev) (ev_children ev) s x r) = inr [] ->
  predict_page ev m w
    = (inl IndexError, log_out (Markdown "subtitle") (log_out (Markdown "title") w)).
Proof.
  intros Hp Hs Hx Hr Hm.
  unfold predict_page, predict_inputs, selectbox, encode, predict, bind, lift_opt, lift.
  rewrite Hs, Hx, Hr, Hp. simpl. rewrite Hm. reflexivity.
Qed.

(** Upload page: an uploaded file that read_csv rejects is not caught: the
    rerun ends with ParserError after the page title, without the footer. *)
Theorem upload_unparseable_aborts (ev : Event) (m : Model) (w : World) (c : string) :
  ev_menu ev = UploadPage -> ev_upload ev = Some c -> read_csv c = None ->
  fst (page_body ev m w) = inl ParserError /\
  w_out (snd (page_body ev m w)) = w_out w ++ [Markdown "css"; Markdown "title"].
Proof.
  intros Hm Hu Hr. unfold_run. rewrite Hm, Hu. crunch.
  all: split; [reflexivity | rewrite <- !app_assoc; reflexivity].
Qed.

(** Upload page: a parsed upload is previewed and acknowledged. *)
Theorem upload_preview_shown (ev : Event) (m : Model) (w : World) (c : string) (t : Table) :
  ev_menu ev = UploadPage -> ev_upload ev = Some c -> read_csv c = Some t ->
  fst (page_body ev m w) = inr None /\
  w_out (snd (page_body ev m w))
    = w_out w ++ [Markdown "css"; Markdown "title"; Markdown "### Preview"; Preview;
                  StSuccess "Dataset loaded successfully!"; Markdown "footer"].
Proof.
  intros Hm Hu Hr. unfold_run. rewrite Hm, Hu. crunch.
  all: split; [reflexivity | rewrite <- !app_assoc; reflexivity].
Qed.

(** A rerun returns a prediction only on the Predict page with the button
    pressed. *)
Theorem prediction_only_when_pressed (ev : Event) (w : World) (p : Pred) :
  fst (script ev w) = inr (Some p) ->
  ev_menu ev = PredictPage /\ ev_pressed ev = true.
Proof.
  unfold_run. destruct (ev_menu ev); crunch; intro H; try discriminate; split; congruence.
Qed.

(** Every rerun that completes renders the footer last. *)
Theorem completed_rerun_ends_with_footer (ev : Event) (w : World) r :
  fst (script ev w) = inr r ->
  exists l, w_out (snd (script ev w)) = w_out w ++ l ++ [Markdown "footer"].
Proof.
  unfold_run. destruct (ev_menu ev); crunch; intro H; try discriminate;
    rewrite <- ?app_assoc; cbn;
    match goal with |- exists l, _ ++ ?xs = _ => exists (removelast xs); reflexivity end.
Qed.

(** The frame passed to [model.predict] has one row: eight distinct
    columns, each holding exactly one cell. *)
Theorem input_df_single_row (age bmi children : Num) (smoker sex region : string) :
  map (fun col => length (snd col)) (input_df age bmi children smoker sex region)
    = repeat 1%nat 8 /\
  NoDup (df_columns (input_df age bmi children smoker sex region)).
Proof.
  split; [reflexivity|]. cbn.
  repeat constructor; cbn; intuition discriminate.
Qed.

End Runtime.

(** ** Concrete runs *)

(** The request of the spec's example: 35, 27.5, 2, "yes", "female",
    "southeast". *)
Example input_df_example :
  input_df (35 # 1) (55 # 2) (2 # 1) "yes" "female" "southeast" =
  [ ("age", [CNum (35 # 1)]); ("bmi", [CNum (55 # 2)]); ("children", [CNum (2 # 1)]);
    ("smoker", [CInt 1%Z]); ("sex_male", [CInt 0%Z]);
    ("region_northwest", [CInt 0%Z]); ("region_southeast", [CInt 1%Z]);
    ("region_southwest", [CInt 0%Z]) ].
Proof. reflexivity. Qed.

Example northeast_all_zero :
  region_flags (input_df 40%Z 30%Z 1%Z "no" "male" "northeast") = Some (0, 0, 0)%Z.
Proof. reflexivity. Qed.

Lemma ui_region_one_hot_witness :
  let ev := Build_Event PredictPage 35%Z 27%Z 2%Z 0 1 1 true None in
  let w := {| w_files := []; w_cache := @None Z; w_reads := []; w_out := [] |} in
  let df := input_df 35%Z 27%Z 2%Z "yes" "female" "southeast" in
  region_flags df = Some (1, 0, 0)%Z \/ region_flags df = Some (0, 1, 0)%Z \/
  region_flags df = Some (0, 0, 1)%Z.
Proof. intros ev w df. exact (ui_region_one_hot ev w w df eq_refl). Defined.

Lemma predict_returns_first_witness :
  let mp := fun (m : Z) (_ : DataFrame Z) => (inr [m; 0%Z] : Exc + list Z) in
  let ev := Build_Event PredictPage 35%Z 27%Z 2%Z 0 1 1 true None in
  let w := {| w_files := []; w_cache := @None Z; w_reads := []; w_out := [] |} in
  fst (predict_page mp (fun _ => "12.00") ev 12%Z w) = inr (Some 12%Z).
Proof.
  intros mp ev w.
  exact (f_equal fst (proj2 (predict_returns_first mp (fun _ => "12.00") ev 12%Z w
           "yes" "female" "southeast" 12%Z [0%Z]
           eq_refl eq_refl eq_refl eq_refl eq_refl))).
Defined.

Lemma analytics_missing_dataset_witness :
  let w := {| w_files := [(artifact, "rf")]; w_cache := @None Z; w_reads := []; w_out := [] |} in
  exists w0,
    analytics_page (fun _ => @None unit) (fun _ _ _ _ => true) w
      = (inr tt, log_out (StError dataset_missing_msg) w0) /\
    w_out w0 = w_out w ++ [Markdown "title"].
Proof.
  intros w. apply (analytics_missing_dataset (fun _ => @None unit) (fun _ _ _ _ => true) w).
  left. reflexivity.
Defined.

Lemma model_loaded_once_witness :
  let jl := fun s : string => if String.eqb s "rf" then Some 7%Z else None in
  let mp := fun (m : Z) (_ : DataFrame Z) => (inr [m] : Exc + list Z) in
  let evs := [Build_Event PredictPage 35%Z 27%Z 2%Z 0 1 1 true None;
              Build_Event AnalyticsPage 35%Z 27%Z 2%Z 0 1 1 false None;
              Build_Event PredictPage 50%Z 31%Z 0%Z 1 0 2 true None] in
  let w := {| w_files := [(artifact, "rf")]; w_cache := @None Z; w_reads := []; w_out := [] |} in
  count_occ string_dec
    (w_reads (snd (process jl (fun _ => @None unit) (fun _ => true) (fun _ => @None unit)
                     (fun _ _ _ _ => true) mp (fun _ => "7.00") evs w))) artifact = 1%nat.
Proof.
  intros jl mp evs w.
  exact (proj2 (proj2 (model_loaded_once jl (fun _ => @None unit) (fun _ => true)
           (fun _ => @None unit) (fun _ _ _ _ => true) mp (fun _ => "7.00") evs w "rf" 7%Z
           eq_refl eq_refl eq_refl ltac:(discriminate)))).
Defined.


Lemma model_missing_every_rerun_fails_witness :
  let jl := fun s : string => if String.eqb s "rf" then Some 7%Z else None in
  let mp := fun (m : Z) (_ : DataFrame Z) => (inr [m] : Exc + list Z) in
  let evs := [Build_Event Home 35%Z 27%Z 2%Z 0 1 1 false None;
              Build_Event PredictPage 35%Z 27%Z 2%Z 0 1 1 true None] in
  let w := {| w_files := [("animation.json", "{}")]; w_cache := @None Z;
              w_reads := []; w_out := [] |} in
  process jl (fun _ => Some true) (fun b : bool => b) (fun _ => @None unit)
    (fun _ _ _ _ => true) mp (fun _ => "7.00") evs w
  = (map (fun _ => inl (FileNotFoundError artifact)) evs, w).
Proof. intros. apply model_missing_every_rerun_fails; reflexivity. Defined.

Lemma model_corrupt_reread_every_rerun_witness :
  let jl := fun s : string => if String.eqb s "rf" then Some 7%Z else None in
  let mp := fun (m : Z) (_ : DataFrame Z) => (inr [m] : Exc + list Z) in
  let evs := [Build_Event Home 35%Z 27%Z 2%Z 0 1 1 false None;
              Build_Event PredictPage 35%Z 27%Z 2%Z 0 1 1 true None] in
  let w := {| w_files := [(artifact, "bad")]; w_cache := @None Z;
              w_reads := []; w_out := [] |} in
  let run := process jl (fun _ => Some true) (fun b : bool => b) (fun _ => @None unit)
               (fun _ _ _ _ => true) mp (fun _ => "7.00") evs w in
  fst run = map (fun _ => inl UnpicklingError) evs /\
  w_cache (snd run) = None /\
  w_reads (snd run) = w_reads w ++ repeat artifact (length evs).
Proof. intros. apply model_corrupt_reread_every_rerun with (c := "bad"); reflexivity. Defined.



Lemma animation_read_every_rerun_witness :
  let mp := fun (m : Z) (_ : DataFrame Z) => (inr [m] : Exc + list Z) in
  let ev := Build_Event AnalyticsPage 35%Z 27%Z 2%Z 0 1 1 false None in
  let w := {| w_files := [("animation.json", "{}"); ("insurance.csv", "age,charges")];
              w_cache := @None Z; w_reads := []; w_out := [] |} in
  exists l, w_reads (snd (page_body (fun _ => Some true) (fun b : bool => b)
                            (fun _ => Some tt) (fun _ _ _ _ => true) mp (fun _ => "7.00")
                            ev 7%Z w))
            = w_reads w ++ "animation.json" :: l.
Proof. intros. apply animation_read_every_rerun with (c := "{}"); reflexivity. Defined.

Lemma analytics_charts_rendered_witness :
  let rc := fun s : string => if String.eqb s "age,charges" then Some tt else None in
  let w := {| w_files := [("insurance.csv", "age,charges")]; w_cache := @None Z;
              w_reads := []; w_out := [] |} in
  let run := analytics_page rc (fun _ _ _ _ => true) w in
  fst run = inr tt /\
  w_out (snd run) = w_out w ++ [Markdown "title"; Tabs; Chart "Age vs Charges";
                                Chart "BMI vs Charges"; Chart "Smoker vs Non-Smoker Charges"].
Proof. intros. apply analytics_charts_rendered with (c := "age,charges") (t := tt); reflexivity. Defined.

Lemma analytics_plot_failure_message_witness :
  let rc := fun s : string => if String.eqb s "bmi,charges" then Some tt else None in
  let pp := fun (_ : unit) (x _ : string) (_ : option string) => negb (String.eqb x "age") in
  let w := {| w_files := [("insurance.csv", "bmi,charges")]; w_cache := @None Z;
              w_reads := []; w_out := [] |} in
  let run := analytics_page rc pp w in
  fst run = inr tt /\
  w_out (snd run) = w_out w ++ [Markdown "title"; Tabs; StError dataset_missing_msg].
Proof. intros. apply analytics_plot_failure_message with (c := "bmi,charges") (t := tt); reflexivity. Defined.

Lemma predict_not_pressed_witness :
  let mp := fun (m : Z) (_ : DataFrame Z) => (inr [m] : Exc + list Z) in
  let ev := Build_Event PredictPage 35%Z 27%Z 2%Z 1 0 2 false None in
  let w := {| w_files := []; w_cache := @None Z; w_reads := []; w_out := [] |} in
  predict_page mp (fun _ => "7.00") ev 7%Z w
    = (inr None, log_out (Markdown "subtitle") (log_out (Markdown "title") w)).
Proof. intros. apply predict_not_pressed with (s := "no") (x := "male") (r := "southwest"); reflexivity. Defined.

Lemma predict_empty_output_raises_witness :
  let mp := fun (_ : Z) (_ : DataFrame Z) => (inr [] : Exc + list Z) in
  let ev := Build_Event PredictPage 35%Z 27%Z 2%Z 0 1 1 true None in
  let w := {| w_files := []; w_cache := @None Z; w_reads := []; w_out := [] |} in
  predict_page mp (fun _ => "7.00") ev 7%Z w
    = (inl IndexError, log_out (Markdown "subtitle") (log_out (Markdown "title") w)).
Proof.
  intros. apply predict_empty_output_raises with (s := "yes") (x := "female") (r := "southeast");
    reflexivity.
Defined.

Lemma upload_unparseable_aborts_witness :
  let rc := fun s : string => if String.eqb s "age,charges" then Some tt else None in
  let mp := fun (m : Z) (_ : DataFrame Z) => (inr [m] : Exc + list Z) in
  let ev := Build_Event UploadPage 35%Z 27%Z 2%Z 0 1 1 false (Some "<binary>") in
  let w := {| w_files := []; w_cache := @None Z; w_reads := []; w_out := [] |} in
  let run := page_body (fun _ => Some true) (fun b : bool => b) rc
               (fun _ _ _ _ => true) mp (fun _ => "7.00") ev 7%Z w in
  fst run = inl ParserError /\
  w_out (snd run) = w_out w ++ [Markdown "css"; Markdown "title"].
Proof. intros. apply upload_unparseable_aborts with (c := "<binary>"); reflexivity. Defined.

Lemma upload_preview_shown_witness :
  let rc := fun s : string => if String.eqb s "age,charges" then Some tt else None in
  let mp := fun (m : Z) (_ : DataFrame Z) => (inr [m] : Exc + list Z) in
  let ev := Build_Event UploadPage 35%Z 27%Z 2%Z 0 1 1 false (Some "age,charges") in
  let w := {| w_files := []; w_cache := @None Z; w_reads := []; w_out := [] |} in
  let run := page_body (fun _ => Some true) (fun b : bool => b) rc
               (fun _ _ _ _ => true) mp (fun _ => "7.00") ev 7%Z w in
  fst run = inr None /\
  w_out (snd run) = w_out w ++ [Markdown "css"; Markdown "title"; Markdown "### Preview";
                                Preview; StSuccess "Dataset loaded successfully!";
                                Markdown "footer"].
Proof. intros. apply upload_preview_shown with (c := "age,charges") (t := tt); reflexivity. Defined.

Lemma prediction_only_when_pressed_witness :
  let jl := fun s : string => if String.eqb s "rf" then Some 7%Z else None in
  let mp := fun (m : Z) (_ : DataFrame Z) => (inr [m] : Exc + list Z) in
  let ev := Build_Event PredictPage 35%Z 27%Z 2%Z 0 1 1 true None in
  let w := {| w_files := [(artifact, "rf")]; w_cache := @None Z;
              w_reads := []; w_out := [] |} in
  fst (script jl (fun _ => Some true) (fun b : bool => b) (fun _ => @None unit)
         (fun _ _ _ _ => true) mp (fun _ => "7.00") ev w) = inr (Some 7%Z) /\
  ev_menu ev = PredictPage /\ ev_pressed ev = true.
Proof.
  intros. split; [reflexivity|].
  apply prediction_only_when_pressed with (w := w) (p := 7%Z)
    (joblib_load := jl) (json_load := fun _ => Some true) (json_truthy := fun b : bool => b)
    (read_csv := fun _ => @None unit) (px_plot := fun _ _ _ _ => true)
    (model_predict := mp) (format_2f := fun _ => "7.00").
  reflexivity.
Defined.

Lemma completed_rerun_ends_with_footer_witness :
  let jl := fun s : string => if String.eqb s "rf" then Some 7%Z else None in
  let mp := fun (m : Z) (_ : DataFrame Z) => (inr [m] : Exc + list Z) in
  let ev := Build_Event Home 35%Z 27%Z 2%Z 0 1 1 false None in
  let w := {| w_files := [(artifact, "rf")]; w_cache := @None Z;
              w_reads := []; w_out := [] |} in
  exists l, w_out (snd (script jl (fun _ => Some true) (fun b : bool => b)
                          (fun _ => @None unit) (fun _ _ _ _ => true) mp
                          (fun _ => "7.00") ev w))
            = w_out w ++ l ++ [Markdown "footer"].
Proof. intros. apply completed_rerun_ends_with_footer with (r := None); reflexivity. Defined.
